(** * The Tweet Generator view of [client/src/App.jsx]

    A shallow embedding of the [App] component: its four pieces of React
    state, the asynchronous click handler [handleGenerateTweet], and the
    two conditional panels of the render function.

    JavaScript strings are sequences of UTF-16 code units; values coming
    back from [response.json()] are arbitrary JSON values.  The handler
    is asynchronous: it is embedded as a finite resumption whose nodes are
    the state setter calls, the [console.error] call and the two [await]
    points of the source.  *)

From Stdlib Require Import List Bool NArith ZArith QArith Ascii String Lia ZifyBool.
Import ListNotations.

Local Open Scope N_scope.

(* ================================================================== *)
(** ** JavaScript strings *)

Module JsString.

(** A string is the list of its UTF-16 code units. *)
Definition t := list N.

(** An ASCII literal of the source, as code units. *)
Definition js (s : string) : t := map N_of_ascii (list_ascii_of_string s).

Definition eqb (a b : t) : bool :=
  if list_eq_dec N.eq_dec a b then true else false.

(** ECMAScript [WhiteSpace] and [LineTerminator] code points, the ones
    that [String.prototype.trim] strips.  All of them are in the BMP. *)
Definition is_white_space (c : N) : bool :=
  (c =? 0x09) || (c =? 0x0A) || (c =? 0x0B) || (c =? 0x0C) || (c =? 0x0D)
  || (c =? 0x20) || (c =? 0xA0) || (c =? 0x1680)
  || ((0x2000 <=? c) && (c <=? 0x200A))
  || (c =? 0x2028) || (c =? 0x2029) || (c =? 0x202F) || (c =? 0x205F)
  || (c =? 0x3000) || (c =? 0xFEFF).

Fixpoint trimStart (s : t) : t :=
  match s with
  | [] => []
  | c :: s' => if is_white_space c then trimStart s' else s
  end.

Definition trimEnd (s : t) : t := rev (trimStart (rev s)).

(** [String.prototype.trim]. *)
Definition trim (s : t) : t := trimEnd (trimStart s).

(** A string is truthy unless it is empty. *)
Definition to_boolean (s : t) : bool :=
  match s with [] => false | _ :: _ => true end.

(** The strings that consist of white space only (the empty one too). *)
Definition blank (s : t) : bool := forallb is_white_space s.

End JsString.

Abbreviation jsstring := JsString.t.
Abbreviation js := JsString.js.

(* ================================================================== *)
(** ** JavaScript values *)

(** A number that [JSON.parse] can produce: a finite double, which is a
    rational number, or an infinity (from an overflowing literal). *)
Inductive number :=
| Finite (q : Q)
| Infinite (negative : bool).

(** The values that reach the component: what [JSON.parse] produces,
    and [undefined] for a property that is not there.  An object is kept
    as its list of own properties, the first entry of a key being the
    one that a property read finds. *)
#[warnings="-register-all"]
Inductive value :=
| VUndefined
| VNull
| VBool (b : bool)
| VNum (n : number)
| VStr (s : jsstring)
| VArr (elements : list value)
| VObj (properties : list (jsstring * value)).

(** [ToBoolean]. *)
Definition truthy (v : value) : bool :=
  match v with
  | VUndefined | VNull => false
  | VBool b => b
  | VNum (Finite q) => negb (Qnum q =? 0)%Z
  | VNum (Infinite _) => true
  | VStr s => JsString.to_boolean s
  | VArr _ | VObj _ => true
  end.

Fixpoint own_property (k : jsstring) (ps : list (jsstring * value))
  : option value :=
  match ps with
  | [] => None
  | (k', v) :: ps' => if JsString.eqb k' k then Some v else own_property k ps'
  end.

(** The exceptions that can reach the [catch] block.  The [Error] objects
    only go to the console, so their messages stay symbolic. *)
Inductive exn :=
| FetchRejected (reason : jsstring)       (* [fetch] rejected: network failure *)
| HttpError (status : Z)                  (* line 33 *)
| JsonRejected (reason : jsstring)        (* [response.json()] rejected *)
| TypeError (property : jsstring)         (* property read on [null] *)
| ErrorOf (message : value)               (* line 39, [new Error(data.error)] *)
| CannotConvert (v : value).              (* line 39, [ToString] throws *)

(** A property read [v.k] for a key [k] that no prototype defines (such
    as [error] and [tweet]): it throws on [null] and [undefined], finds
    the own property of an object, and is [undefined] on anything else. *)
Definition get (v : value) (k : jsstring) : exn + value :=
  match v with
  | VUndefined | VNull => inl (TypeError k)
  | VObj ps =>
      match own_property k ps with
      | Some x => inr x
      | None => inr VUndefined
      end
  | _ => inr VUndefined
  end.

(** Whether [ToString] throws a [TypeError].  No value of a parsed body
    is callable, so an object with an own property [toString] has no
    usable [toString], and the [valueOf] it finds (its own, or the one of
    [Object.prototype], which returns the object) gives no primitive
    either.  An array is joined, which converts its elements other than
    [null] in turn.  Nothing else throws. *)
Fixpoint to_string_throws (v : value) : bool :=
  match v with
  | VObj ps =>
      match own_property (JsString.js "toString") ps with
      | Some _ => true
      | None => false
      end
  | VArr elements => existsb to_string_throws elements
  | _ => false
  end.

(** What the expression [new Error(message)] gives to a [throw]: the
    constructor converts the message with [ToString], so it is the
    [Error], or the [TypeError] of the conversion. *)
Definition new_Error (message : value) : exn :=
  if to_string_throws message then CannotConvert message else ErrorOf message.

(* ================================================================== *)
(** ** [JSON.stringify] of an object with string properties *)

Module JSON.

Definition is_leading_surrogate (c : N) : bool :=
  (0xD800 <=? c) && (c <=? 0xDBFF).
Definition is_trailing_surrogate (c : N) : bool :=
  (0xDC00 <=? c) && (c <=? 0xDFFF).

(** A lower-case hexadecimal digit. *)
Definition hex_digit (d : N) : N :=
  if d <? 10 then 48 + d else 87 + d.

(** [UnicodeEscape]: a backslash, [u] and four hexadecimal digits. *)
Definition UnicodeEscape (c : N) : jsstring :=
  [92; 117; hex_digit ((c / 4096) mod 16); hex_digit ((c / 256) mod 16);
   hex_digit ((c / 16) mod 16); hex_digit (c mod 16)].

(** One code unit that is not a surrogate, as [QuoteJSONString] writes
    it: the short escapes of the table, a [UnicodeEscape] for the other
    control characters, the code unit itself otherwise. *)
Definition quote_unit (c : N) : jsstring :=
  if c =? 0x08 then [92; 98]
  else if c =? 0x09 then [92; 116]
  else if c =? 0x0A then [92; 110]
  else if c =? 0x0C then [92; 102]
  else if c =? 0x0D then [92; 114]
  else if c =? 0x22 then [92; 34]
  else if c =? 0x5C then [92; 92]
  else if c <? 0x20 then UnicodeEscape c
  else [c].

(** The characters between the quotes: a surrogate pair is written as
    it is, a lone surrogate as a [UnicodeEscape]. *)
Fixpoint quote_units (s : jsstring) : jsstring :=
  match s with
  | [] => []
  | c :: s' =>
      if is_leading_surrogate c then
        match s' with
        | d :: s'' =>
            if is_trailing_surrogate d then c :: d :: quote_units s''
            else UnicodeEscape c ++ quote_units s'
        | [] => UnicodeEscape c
        end
      else if is_trailing_surrogate c then UnicodeEscape c ++ quote_units s'
      else quote_unit c ++ quote_units s'
  end.

Definition QuoteJSONString (s : jsstring) : jsstring :=
  [34] ++ quote_units s ++ [34].

(** [JSON.stringify] of an object whose properties are all strings:
    no white space, properties in their order. *)
Fixpoint members (ps : list (jsstring * jsstring)) : jsstring :=
  match ps with
  | [] => []
  | [(k, v)] => QuoteJSONString k ++ [58] ++ QuoteJSONString v
  | (k, v) :: ps' =>
      QuoteJSONString k ++ [58] ++ QuoteJSONString v ++ [44] ++ members ps'
  end.

Definition stringify (ps : list (jsstring * jsstring)) : jsstring :=
  [123] ++ members ps ++ [125].

(** *** A reader for the text of a JSON string (RFC 8259, section 7)

    This is the receiving side, against which the request body is
    checked; it is not part of the component. *)

Definition hex_value (x : N) : option N :=
  if (48 <=? x) && (x <=? 57) then Some (x - 48)
  else if (97 <=? x) && (x <=? 102) then Some (x - 87)
  else if (65 <=? x) && (x <=? 70) then Some (x - 55)
  else None.

Definition hex4 (a b c d : N) : option N :=
  match hex_value a, hex_value b, hex_value c, hex_value d with
  | Some a, Some b, Some c, Some d => Some (4096 * a + 256 * b + 16 * c + d)
  | _, _, _, _ => None
  end.

Definition simple_escape (e : N) : option N :=
  if e =? 34 then Some 34
  else if e =? 92 then Some 92
  else if e =? 47 then Some 47
  else if e =? 98 then Some 0x08
  else if e =? 102 then Some 0x0C
  else if e =? 110 then Some 0x0A
  else if e =? 114 then Some 0x0D
  else if e =? 116 then Some 0x09
  else None.

Definition cons_result (c : N) (r : option (jsstring * jsstring))
  : option (jsstring * jsstring) :=
  match r with
  | Some (s, rest) => Some (c :: s, rest)
  | None => None
  end.

(** Reads the characters of a string up to its closing quote; gives the
    string and what follows the quote. *)
Fixpoint read_chars (s : jsstring) : option (jsstring * jsstring) :=
  match s with
  | [] => None
  | c :: s' =>
      if c =? 34 then Some ([], s')
      else if c =? 92 then
        match s' with
        | [] => None
        | e :: s'' =>
            if e =? 117 then
              match s'' with
              | h1 :: h2 :: h3 :: h4 :: s''' =>
                  match hex4 h1 h2 h3 h4 with
                  | Some u => cons_result u (read_chars s''')
                  | None => None
                  end
              | _ => None
              end
            else
              match simple_escape e with
              | Some u => cons_result u (read_chars s'')
              | None => None
              end
        end
      else if c <? 0x20 then None
      else cons_result c (read_chars s')
  end.

Definition read_string (s : jsstring) : option (jsstring * jsstring) :=
  match s with
  | 34 :: s' => read_chars s'
  | _ => None
  end.

Definition expect (c : N) (s : jsstring) : option jsstring :=
  match s with
  | c' :: s' => if c' =? c then Some s' else None
  | [] => None
  end.

(** Reads the text of an object with exactly one member, a string:
    gives the member's name and its value. *)
Definition read_single_member (s : jsstring) : option (jsstring * jsstring) :=
  match expect 123 s with
  | Some s1 =>
      match read_string s1 with
      | Some (k, s2) =>
          match expect 58 s2 with
          | Some s3 =>
              match read_string s3 with
              | Some (v, s4) =>
                  match s4 with
                  | [125] => Some (k, v)
                  | _ => None
                  end
              | None => None
              end
          | None => None
          end
      | None => None
      end
  | None => None
  end.

End JSON.

(* ================================================================== *)
(** ** The outbound request *)

Record RequestInit := mkRequestInit {
  method : jsstring;
  headers : list (jsstring * jsstring);
  body : jsstring
}.

(** What [fetch] resolves to.  [json] is what [response.json()] settles
    to for the body of this response: the parsed value, or a rejection
    when the body is not JSON. *)
Record Response := mkResponse {
  status : Z;
  json : exn + value
}.

(** [response.ok]: the status is in the range 200-299. *)
Definition ok (r : Response) : bool :=
  ((200 <=? status r) && (status r <=? 299))%Z.

(* ================================================================== *)
(** ** The component *)

(** The four [useState] cells of [App] (lines 8-11). *)
Record View := mkView {
  topic : jsstring;
  generatedTweet : value;
  isLoading : bool;
  error : value
}.

Definition initial_view : View := mkView [] (VStr []) false VNull.

(** The calls with an effect that the component makes. *)
Inductive call :=
| setTopic (s : jsstring)
| setGeneratedTweet (v : value)
| setIsLoading (b : bool)
| setError (v : value)
| console_error (label : jsstring) (e : exn).

Definition apply_call (c : call) (v : View) : View :=
  match c with
  | setTopic s => mkView s (generatedTweet v) (isLoading v) (error v)
  | setGeneratedTweet t => mkView (topic v) t (isLoading v) (error v)
  | setIsLoading b => mkView (topic v) (generatedTweet v) b (error v)
  | setError e => mkView (topic v) (generatedTweet v) (isLoading v) e
  | console_error _ _ => v
  end.

(** An asynchronous function body: a call followed by the rest, or one
    of the two [await]s of the handler with the continuation that runs
    when the promise settles ([inl] for a rejection). *)
Inductive proc :=
| Done
| Call (c : call) (k : proc)
| AwaitFetch (url : jsstring) (init : RequestInit) (k : exn + Response -> proc)
| AwaitJson (r : Response) (k : exn + value -> proc).

(** *** The handler, lines 13-49 *)

Definition endpoint : jsstring := js "http://127.0.0.1:5000/api/generate-tweet".

Definition validation_message : jsstring := js "Please enter a topic.".

Definition failure_message : jsstring :=
  js "Failed to generate tweet. Is the backend server running?".

(** The second argument of [fetch], lines 24-30. *)
Definition request_init (topic : jsstring) : RequestInit :=
  {| method := js "POST";
     headers := [(js "Content-Type", js "application/json")];
     body := JSON.stringify [(js "topic", topic)] |}.

(** The [finally] block, line 47. *)
Definition finally_block : proc := Call (setIsLoading false) Done.

(** The [catch] block, lines 43-45, followed by the [finally] block. *)
Definition catch_block (e : exn) : proc :=
  Call (console_error (js "Failed to fetch:") e)
    (Call (setError (VStr failure_message)) finally_block).

(** Lines 36-42, from the point where [response.json()] settles. *)
Definition on_data (settled : exn + value) : proc :=
  match settled with
  | inl e => catch_block e
  | inr data =>
      match get data (js "error") with
      | inl e => catch_block e
      | inr data_error =>
          if truthy data_error then catch_block (new_Error data_error)
          else
            match get data (js "tweet") with
            | inl e => catch_block e
            | inr data_tweet => Call (setGeneratedTweet data_tweet) finally_block
            end
      end
  end.

(** Lines 32-36, from the point where [fetch] settles. *)
Definition on_response (settled : exn + Response) : proc :=
  match settled with
  | inl e => catch_block e
  | inr response =>
      if negb (ok response) then catch_block (HttpError (status response))
      else AwaitJson response on_data
  end.

(** [handleGenerateTweet], with the [topic] of the render it closes over. *)
Definition handleGenerateTweet (topic : jsstring) : proc :=
  if negb (JsString.to_boolean (JsString.trim topic)) then
    Call (setError (VStr validation_message)) Done
  else
    Call (setIsLoading true)
      (Call (setError VNull)
         (Call (setGeneratedTweet (VStr []))
            (AwaitFetch endpoint (request_init topic) on_response))).

(** *** Running a handler *)

(** What an observer of the handler sees, in order. *)
Inductive event :=
| Called (c : call)
| Fetched (url : jsstring) (init : RequestInit)
| JsonRead (r : Response).

(** The whole run of a handler when [fetch] settles to [x]. *)
Fixpoint run (x : exn + Response) (p : proc) : list event :=
  match p with
  | Done => []
  | Call c k => Called c :: run x k
  | AwaitFetch url init k => Fetched url init :: run x (k x)
  | AwaitJson r k => JsonRead r :: run x (k (json r))
  end.

(** The run up to the first [await]. *)
Fixpoint run_sync (p : proc) : list event :=
  match p with
  | Call c k => Called c :: run_sync k
  | _ => []
  end.

(** What is left to run at the first [await], [Done] if there is none. *)
Fixpoint suspended (p : proc) : proc :=
  match p with
  | Call _ k => suspended k
  | _ => p
  end.

Definition apply_event (v : View) (e : event) : View :=
  match e with
  | Called c => apply_call c v
  | _ => v
  end.

Definition exec (es : list event) (v : View) : View :=
  fold_left apply_event es v.

(** A click on the button in view [v], up to the point where the handler
    is suspended (or has returned). *)
Definition submit_start (v : View) : View :=
  exec (run_sync (handleGenerateTweet (topic v))) v.

(** A click on the button in view [v] whose exchange settles to [x]: the
    trace of the handler, and the view when it has completed. *)
Definition submit_trace (v : View) (x : exn + Response) : list event :=
  run x (handleGenerateTweet (topic v)).

Definition submit (v : View) (x : exn + Response) : View :=
  exec (submit_trace v x) v.

Definition fetches (es : list event) : list (jsstring * RequestInit) :=
  flat_map (fun e => match e with Fetched u i => [(u, i)] | _ => [] end) es.

Definition loading_calls (es : list event) : list bool :=
  flat_map (fun e => match e with Called (setIsLoading b) => [b] | _ => [] end) es.

Definition topic_calls (es : list event) : list jsstring :=
  flat_map (fun e => match e with Called (setTopic s) => [s] | _ => [] end) es.

(** *** The render function, lines 79-106 *)

Definition controls_disabled (v : View) : bool := isLoading v.
Definition error_panel (v : View) : bool := truthy (error v).
Definition result_panel (v : View) : bool := truthy (generatedTweet v).

(** *** The page as a transition system

    The page holds the view and the handlers that are suspended at an
    [await].  The user can type and click only while the controls are
    enabled; the network settles a pending promise at any time. *)

Record Page := mkPage {
  view : View;
  pending : list proc
}.

Definition initial_page : Page := mkPage initial_view [].

Definition resume (v : View) (p : proc) (before after : list proc) : Page :=
  mkPage (exec (run_sync p) v)
         (before ++ match suspended p with Done => [] | q => [q] end ++ after).

Inductive step : Page -> Page -> Prop :=
| step_change v ps s :
    controls_disabled v = false ->
    step (mkPage v ps) (mkPage (apply_call (setTopic s) v) ps)
| step_click v ps :
    controls_disabled v = false ->
    step (mkPage v ps) (resume v (handleGenerateTweet (topic v)) ps [])
| step_fetch_settled v before url init k after x :
    step (mkPage v (before ++ AwaitFetch url init k :: after))
         (resume v (k x) before after)
| step_json_settled v before r k after :
    step (mkPage v (before ++ AwaitJson r k :: after))
         (resume v (k (json r)) before after).

Inductive reachable : Page -> Prop :=
| reachable_initial : reachable initial_page
| reachable_step p q : reachable p -> step p q -> reachable q.

(* ================================================================== *)
(** ** Vocabulary of the properties *)

(** The handler after the [fetch]: it ends in the [catch] block with some
    exception, or it sets the tweet that it read. *)
Inductive outcome (x : exn + Response) : list event -> Prop :=
| outcome_failed e pre :
    pre = [] \/ (exists r, x = inr r /\ ok r = true /\ pre = [JsonRead r]) ->
    outcome x (pre ++ run x (catch_block e))
| outcome_tweet r data tweet :
    x = inr r -> ok r = true -> json r = inr data ->
    get data (js "tweet") = inr tweet ->
    outcome x [JsonRead r; Called (setGeneratedTweet tweet);
               Called (setIsLoading false)].

(** The exchanges without a usable answer: a rejected [fetch], a status
    outside 200-299, a body that is not JSON. *)
Inductive transport_failure : exn + Response -> Prop :=
| network_failure e : transport_failure (inl e)
| bad_status r : ok r = false -> transport_failure (inr r)
| bad_body r e : ok r = true -> json r = inl e -> transport_failure (inr r).

(** [response.json()] never resolves to [undefined]. *)
Definition json_value (v : value) : bool :=
  match v with VUndefined => false | _ => true end.

(** The field [k] of a parsed body, if the body is an object with it. *)
Definition field (k : jsstring) (data : value) : option value :=
  match data with
  | VObj ps => own_property k ps
  | _ => None
  end.

(** A parsed body with neither a tweet field nor a truthy error field. *)
Definition no_tweet_no_error (data : value) : bool :=
  match field (js "tweet") data with Some _ => false | None => true end
  && match field (js "error") data with
     | Some e => negb (truthy e)
     | None => true
     end.

(** The views in which no handler is running: there is no error, or the
    error of the [catch] block with an empty result, or the error of the
    validation. *)
Definition at_rest (v : View) : Prop :=
  isLoading v = false /\
  (error v = VNull \/
   (error v = VStr failure_message /\ generatedTweet v = VStr []) \/
   error v = VStr validation_message).

(** The pages that the transition system can be in: nothing is pending
    and the view is at rest, or one handler is suspended at one of its
    two [await]s, in the view that lines 19-21 have set. *)
Inductive page_shape : Page -> Prop :=
| shape_rest v : at_rest v -> page_shape (mkPage v [])
| shape_fetching t :
    page_shape (mkPage (mkView t (VStr []) true VNull)
                       [AwaitFetch endpoint (request_init t) on_response])
| shape_reading t r :
    page_shape (mkPage (mkView t (VStr []) true VNull) [AwaitJson r on_data]).

(* ================================================================== *)
(** ** Sample views and exchanges *)

Module Sample.

(** The view after the user has typed a topic. *)
Definition typed : View := mkView (js "AI") (VStr []) false VNull.

(** The view after the user has typed two spaces. *)
Definition spaces : View := mkView (js "  ") (VStr []) false VNull.

(** A response of the given status whose body is an object with one
    property. *)
Definition response (status : Z) (k : jsstring) (v : value) : exn + Response :=
  inr (mkResponse status (inr (VObj [(k, v)]))).

Definition solar : value := VStr (js "Solar is the future").


Definition refused : exn + Response :=
  inl (FetchRejected (js "Failed to fetch")).

(** A response of status 200 whose body is the JSON text [null]. *)
Definition null_body : exn + Response := inr (mkResponse 200 (inr VNull)).

(** A response of status 200 whose body is the JSON text of an empty
    object. *)
Definition empty_object : exn + Response :=
  inr (mkResponse 200 (inr (VObj []))).

(** The page after: typing a topic, a click, a response of status 200
    with a tweet; then two spaces typed over the topic, and a click. *)
Definition stale_tweet : Page :=
  mkPage (mkView (js "  ") solar false (VStr validation_message)) [].

End Sample.

(* ================================================================== *)
(** ** The elements of the page, lines 51-109 *)

(** What the button shows (line 86): the [Spinner] component of lines
    3-5, or a text. *)
Inductive label :=
| Spinner
| Text (s : jsstring).

(** The elements of the page that depend on the state. *)
Inductive element :=
| Textarea (value : jsstring) (disabled : bool)       (* lines 73-80 *)
| Button (disabled : bool) (content : label)          (* lines 81-87 *)
| ErrorPanel (message : value)                        (* lines 92-94 *)
| ResultPanel (tweet : value).                        (* lines 98-105 *)

(** A child expression of the JSX is an element or any other value. *)
Inductive child :=
| Raw (v : value)
| Element (e : element).

(** The expression [a && b]: [a] itself when it is falsy, otherwise [b]. *)
Definition and_then (a : value) (b : child) : child :=
  if truthy a then b else Raw a.

(** The text of the button, line 86: U+2728 and [ Generate Tweet]. *)
Definition generate_label : jsstring := 0x2728 :: js " Generate Tweet".

(** The children of the page that depend on the state, in their order. *)
Definition render (v : View) : list child :=
  [Element (Textarea (topic v) (isLoading v));
   Element (Button (isLoading v)
              (if isLoading v then Spinner else Text generate_label));
   and_then (error v) (Element (ErrorPanel (error v)));
   and_then (generatedTweet v) (Element (ResultPanel (generatedTweet v)))].

(** The values that are not objects: strings, numbers, booleans, [null]
    and [undefined].  React renders such a child as text or as nothing;
    an object as a child makes the render throw (an array is rendered
    child by child), so what a panel shows is only stated for these. *)
Definition primitive (v : value) : bool :=
  match v with
  | VArr _ | VObj _ => false
  | _ => true
  end.

(** *** More to observe in a trace *)

Definition console_calls (es : list event) : list exn :=
  flat_map (fun e => match e with
                     | Called (console_error _ x) => [x]
                     | _ => []
                     end) es.

Definition json_reads (es : list event) : list Response :=
  flat_map (fun e => match e with JsonRead r => [r] | _ => [] end) es.

(** *** Well-formed UTF-16

    Every leading surrogate is followed by a trailing one, and there is
    no other trailing surrogate: the strings that an encoder to UTF-8
    does not alter. *)
Fixpoint well_formed (s : jsstring) : bool :=
  match s with
  | [] => true
  | c :: s' =>
      if JSON.is_leading_surrogate c then
        match s' with
        | d :: s'' => JSON.is_trailing_surrogate d && well_formed s''
        | [] => false
        end
      else negb (JSON.is_trailing_surrogate c) && well_formed s'
  end.

(** A code unit that is neither a control character nor a surrogate. *)
Definition plain (c : N) : bool :=
  (0x20 <=? c) && negb (JSON.is_leading_surrogate c)
  && negb (JSON.is_trailing_surrogate c).

(** A string without control characters. *)
Definition no_control (s : jsstring) : bool := forallb (fun c => 0x20 <=? c) s.

(** *** The pages of one exchange *)

Module Scenario.

(** A topic is typed. *)
Definition typed : Page := mkPage Sample.typed [].

Definition loading_view : View := mkView (js "AI") (VStr []) true VNull.

(** The button is clicked: the [fetch] is pending. *)
Definition fetching : Page :=
  mkPage loading_view [AwaitFetch endpoint (request_init (js "AI")) on_response].

Definition tweet_response : Response :=
  mkResponse 200 (inr (VObj [(js "tweet", Sample.solar)])).

(** The response has arrived: [response.json()] is pending. *)
Definition reading : Page :=
  mkPage loading_view [AwaitJson tweet_response on_data].

(** The body is read: the tweet is shown. *)
Definition shown : Page :=
  mkPage (mkView (js "AI") Sample.solar false VNull) [].

End Scenario.

(* ================================================================== *)
(** ** Properties of [trim] *)

Module JsStringFacts.
Import JsString.

Lemma trimStart_nil (s : t) : trimStart s = [] <-> blank s = true.
Proof.
  unfold blank. induction s as [|c s IH]; simpl.
  - tauto.
  - destruct (is_white_space c); simpl.
    + exact IH.
    + split; discriminate.
Qed.

Lemma blank_app (a b : t) : blank (a ++ b) = blank a && blank b.
Proof. apply forallb_app. Qed.

Lemma blank_rev (s : t) : blank (rev s) = blank s.
Proof.
  induction s as [|c s IH]; simpl; [reflexivity|].
  rewrite blank_app, IH. unfold blank at 2. simpl.
  rewrite andb_true_r. apply andb_comm.
Qed.

Lemma blank_trimStart (s : t) : blank (trimStart s) = blank s.
Proof.
  induction s as [|c s IH]; simpl; [reflexivity|].
  destruct (is_white_space c) eqn:E; simpl; [exact IH|].
  now rewrite E.
Qed.

Lemma rev_nil_iff (s : t) : rev s = [] <-> s = [].
Proof.
  split; intros H; [|now subst].
  rewrite <- (rev_involutive s), H. reflexivity.
Qed.

(** [trim] leaves nothing exactly of the blank strings. *)
Lemma trim_nil (s : t) : trim s = [] <-> blank s = true.
Proof.
  unfold trim, trimEnd.
  rewrite rev_nil_iff, trimStart_nil, blank_rev, blank_trimStart.
  tauto.
Qed.

(** The test of line 14, [!topic.trim()]. *)
Lemma not_trim (s : t) : negb (to_boolean (trim s)) = blank s.
Proof.
  destruct (blank s) eqn:B.
  - apply trim_nil in B. now rewrite B.
  - destruct (trim s) eqn:T; [|reflexivity].
    apply trim_nil in T. congruence.
Qed.

(** A string is not blank when one of its code units is not white space. *)
Lemma not_blank (s : t) :
  blank s = false <-> exists c, In c s /\ is_white_space c = false.
Proof.
  unfold blank. split.
  - intros H. induction s as [|c s IH]; simpl in *; [discriminate|].
    destruct (is_white_space c) eqn:E.
    + destruct (IH H) as (d & Hd & Hw). exists d. auto.
    + exists c. auto.
  - intros (c & Hc & Hw).
    destruct (forallb is_white_space s) eqn:E; [|reflexivity].
    rewrite forallb_forall in E. rewrite (E c Hc) in Hw. discriminate.
Qed.

End JsStringFacts.

(* ================================================================== *)
(** ** What [JSON.stringify] writes, a reader reads back *)

Module JSONFacts.
Import JSON.

Lemma hex_value_digit d : d < 16 -> hex_value (hex_digit d) = Some d.
Proof.
  intros H. unfold hex_value, hex_digit.
  destruct (d <? 10) eqn:E.
  - replace ((48 <=? 48 + d) && (48 + d <=? 57)) with true by lia.
    f_equal. lia.
  - replace ((48 <=? 87 + d) && (87 + d <=? 57)) with false by lia.
    replace ((97 <=? 87 + d) && (87 + d <=? 102)) with true by lia.
    f_equal. lia.
Qed.

Lemma hex4_escape c : c < 65536 ->
  hex4 (hex_digit ((c / 4096) mod 16)) (hex_digit ((c / 256) mod 16))
       (hex_digit ((c / 16) mod 16)) (hex_digit (c mod 16)) = Some c.
Proof.
  intros H. unfold hex4.
  rewrite !hex_value_digit by (apply N.mod_lt; discriminate).
  f_equal. 
  zify. Z.to_euclidean_division_equations. lia.
Qed.

Lemma read_literal c t :
  c <> 34 -> c <> 92 -> 32 <= c ->
  read_chars (c :: t) = cons_result c (read_chars t).
Proof.
  intros H1 H2 H3. simpl.
  replace (c =? 34) with false by lia.
  replace (c =? 92) with false by lia.
  replace (c <? 32) with false by lia.
  reflexivity.
Qed.

Lemma read_unicode_escape c t :
  c < 65536 ->
  read_chars (UnicodeEscape c ++ t) = cons_result c (read_chars t).
Proof.
  intros H. unfold UnicodeEscape.
  cbn [app read_chars N.eqb Pos.eqb].
  now rewrite (hex4_escape c H).
Qed.

Lemma read_quote_unit c t :
  read_chars (quote_unit c ++ t) = cons_result c (read_chars t).
Proof.
  unfold quote_unit.
  repeat match goal with
         | |- context [if ?c =? ?k then _ else _] =>
             destruct (N.eqb_spec c k) as [->|?]; [reflexivity|]
         end.
  destruct (N.ltb_spec c 32).
  - apply read_unicode_escape. lia.
  - apply read_literal; lia.
Qed.

Lemma read_quote_units_aux n : forall s rest,
  (List.length s <= n)%nat ->
  read_chars (quote_units s ++ 34 :: rest) = Some (s, rest).
Proof.
  induction n as [|n IH]; intros s rest L.
  - destruct s; [reflexivity|simpl in L; lia].
  - destruct s as [|c s]; [reflexivity|].
    simpl in L. cbn [quote_units].
    destruct (is_leading_surrogate c) eqn:Hl.
    + unfold is_leading_surrogate in Hl.
      destruct s as [|d s].
      * rewrite read_unicode_escape by lia. reflexivity.
      * destruct (is_trailing_surrogate d) eqn:Ht.
        -- unfold is_trailing_surrogate in Ht. simpl in L.
           cbn [app]. rewrite read_literal by lia.
           rewrite read_literal by lia.
           rewrite IH by lia. reflexivity.
        -- rewrite <- app_assoc, read_unicode_escape by lia.
           rewrite IH by lia. reflexivity.
    + destruct (is_trailing_surrogate c) eqn:Ht.
      * unfold is_trailing_surrogate in Ht.
        rewrite <- app_assoc, read_unicode_escape by lia.
        rewrite IH by lia. reflexivity.
      * rewrite <- app_assoc, read_quote_unit.
        rewrite IH by lia. reflexivity.
Qed.

Lemma read_string_quote s rest :
  read_string (QuoteJSONString s ++ rest) = Some (s, rest).
Proof.
  unfold QuoteJSONString. cbn [app read_string].
  rewrite <- app_assoc. cbn [app].
  apply (read_quote_units_aux (List.length s)). lia.
Qed.

Lemma read_single_member_stringify k v :
  read_single_member (stringify [(k, v)]) = Some (k, v).
Proof.
  unfold stringify, members, read_single_member.
  cbn [app expect N.eqb Pos.eqb].
  rewrite <- !app_assoc, read_string_quote.
  cbn [app expect N.eqb Pos.eqb].
  rewrite read_string_quote. reflexivity.
Qed.

End JSONFacts.

(* ================================================================== *)
(** ** The two branches of the handler *)

Lemma handler_blank (t : jsstring) :
  JsString.blank t = true ->
  handleGenerateTweet t = Call (setError (VStr validation_message)) Done.
Proof.
  intros B. unfold handleGenerateTweet.
  now rewrite JsStringFacts.not_trim, B.
Qed.

Lemma handler_valid (t : jsstring) :
  JsString.blank t = false ->
  handleGenerateTweet t =
    Call (setIsLoading true)
      (Call (setError VNull)
         (Call (setGeneratedTweet (VStr []))
            (AwaitFetch endpoint (request_init t) on_response))).
Proof.
  intros B. unfold handleGenerateTweet.
  now rewrite JsStringFacts.not_trim, B.
Qed.

(** Every way through the [catch] block. *)
Lemma run_catch_block (x : exn + Response) (e : exn) :
  run x (catch_block e) =
    [Called (console_error (js "Failed to fetch:") e);
     Called (setError (VStr failure_message));
     Called (setIsLoading false)].
Proof. reflexivity. Qed.

Lemma run_on_response (x : exn + Response) : outcome x (run x (on_response x)).
Proof.
  destruct x as [e|r]; simpl.
  - apply (outcome_failed _ e []). now left.
  - destruct (ok r) eqn:Hok; simpl.
    + unfold on_data.
      destruct (json r) as [e|data] eqn:J.
      * apply (outcome_failed (inr r) e [JsonRead r]). now right; exists r.
      * destruct (get data (js "error")) as [e|data_error] eqn:GE.
        -- apply (outcome_failed (inr r) e [JsonRead r]). now right; exists r.
        -- destruct (truthy data_error).
           ++ apply (outcome_failed (inr r) _ [JsonRead r]). now right; exists r.
           ++ destruct (get data (js "tweet")) as [e|tweet] eqn:GT.
              ** apply (outcome_failed (inr r) e [JsonRead r]).
                 now right; exists r.
              ** eapply outcome_tweet; eauto.
    + apply (outcome_failed _ (HttpError (status r)) []). now left.
Qed.

Lemma outcome_fetches x es : outcome x es -> fetches es = [].
Proof.
  intros [e pre [->|(r & _ & _ & ->)]|r data tweet _ _ _ _]; reflexivity.
Qed.

Lemma outcome_loading_calls x es : outcome x es -> loading_calls es = [false].
Proof.
  intros [e pre [->|(r & _ & _ & ->)]|r data tweet _ _ _ _]; reflexivity.
Qed.

Lemma outcome_topic_calls x es : outcome x es -> topic_calls es = [].
Proof.
  intros [e pre [->|(r & _ & _ & ->)]|r data tweet _ _ _ _]; reflexivity.
Qed.

Lemma outcome_last x es :
  outcome x es -> exists mid, es = mid ++ [Called (setIsLoading false)].
Proof.
  intros [e pre [->|(r & _ & _ & ->)]|r data tweet _ _ _ _].
  - now exists [Called (console_error (js "Failed to fetch:") e);
                Called (setError (VStr failure_message))].
  - now exists [JsonRead r; Called (console_error (js "Failed to fetch:") e);
                Called (setError (VStr failure_message))].
  - now exists [JsonRead r; Called (setGeneratedTweet tweet)].
Qed.

Lemma outcome_exec x es v :
  outcome x es ->
  topic (exec es v) = topic v /\ isLoading (exec es v) = false.
Proof.
  intros [e pre [->|(r & _ & _ & ->)]|r data tweet _ _ _ _];
    destruct v; split; reflexivity.
Qed.

(** The trace of a valid submission: the three calls of lines 19-21, the
    [fetch], and what follows it. *)
Lemma submit_trace_valid v x :
  JsString.blank (topic v) = false ->
  submit_trace v x =
    [Called (setIsLoading true); Called (setError VNull);
     Called (setGeneratedTweet (VStr []));
     Fetched endpoint (request_init (topic v))] ++ run x (on_response x).
Proof.
  intros B. unfold submit_trace. now rewrite (handler_valid _ B).
Qed.

Lemma submit_trace_blank v x :
  JsString.blank (topic v) = true ->
  submit_trace v x = [Called (setError (VStr validation_message))].
Proof.
  intros B. unfold submit_trace. now rewrite (handler_blank _ B).
Qed.

Lemma exec_app es1 es2 v : exec (es1 ++ es2) v = exec es2 (exec es1 v).
Proof. apply fold_left_app. Qed.

(** The view in which the handler of a valid submission is suspended. *)
Lemma submit_start_valid v :
  JsString.blank (topic v) = false ->
  submit_start v = mkView (topic v) (VStr []) true VNull.
Proof.
  intros B. unfold submit_start. now rewrite (handler_valid _ B).
Qed.

Lemma submit_valid v x :
  JsString.blank (topic v) = false ->
  submit v x =
    exec (run x (on_response x)) (mkView (topic v) (VStr []) true VNull).
Proof.
  intros B. unfold submit. rewrite (submit_trace_valid _ _ B), exec_app.
  reflexivity.
Qed.

(* ================================================================== *)
(** ** The validation branch *)

(** C3.  For every topic that is empty or consists of white space only,
    the handler returns at line 16 without an [await]: its whole trace is
    the one call [setError("Please enter a topic.")], so there is no
    [fetch] and no [setIsLoading]; the error of the view is exactly that
    message and the loading flag is what it was. *)
Theorem blank_topic_rejected (v : View) (x : exn + Response) :
  JsString.blank (topic v) = true ->
  suspended (handleGenerateTweet (topic v)) = Done /\
  submit_trace v x = [Called (setError (VStr validation_message))] /\
  fetches (submit_trace v x) = [] /\
  loading_calls (submit_trace v x) = [] /\
  error (submit v x) = VStr (js "Please enter a topic.") /\
  isLoading (submit v x) = isLoading v.
Proof.
  intros B. unfold submit. rewrite (submit_trace_blank _ _ B).
  rewrite (handler_blank _ B). destruct v. repeat split.
Qed.

Lemma blank_topic_rejected_witness :
  JsString.blank (topic Sample.spaces) = true /\
  error (submit Sample.spaces Sample.refused) = VStr (js "Please enter a topic.").
Proof.
  split; [reflexivity|].
  apply (blank_topic_rejected Sample.spaces Sample.refused). reflexivity.
Defined.

(* ================================================================== *)
(** ** The start of a valid submission *)

(** C7.  For every topic that is not blank the trace of the handler
    starts with [setIsLoading(true)], [setError(null)],
    [setGeneratedTweet] of the empty string and then the [fetch]; nothing after it is a
    [fetch], so there is exactly one; and the handler is suspended in a
    view that is loading, with no error and an empty result. *)
Theorem valid_submit_starts (v : View) (x : exn + Response) :
  JsString.blank (topic v) = false ->
  (exists rest,
     submit_trace v x =
       [Called (setIsLoading true); Called (setError VNull);
        Called (setGeneratedTweet (VStr []));
        Fetched endpoint (request_init (topic v))] ++ rest
     /\ fetches rest = []) /\
  List.length (fetches (submit_trace v x)) = 1%nat /\
  submit_start v = mkView (topic v) (VStr []) true VNull.
Proof.
  intros B. pose proof (run_on_response x) as O.
  rewrite (submit_trace_valid _ _ B). repeat split.
  - exists (run x (on_response x)). split; [reflexivity|].
    exact (outcome_fetches _ _ O).
  - unfold fetches in *. rewrite flat_map_app.
    fold (fetches (run x (on_response x))).
    now rewrite (outcome_fetches _ _ O).
  - exact (submit_start_valid _ B).
Qed.

Lemma valid_submit_starts_witness :
  JsString.blank (topic Sample.typed) = false /\
  List.length (fetches (submit_trace Sample.typed Sample.refused)) = 1%nat.
Proof.
  split; [reflexivity|].
  apply (valid_submit_starts Sample.typed Sample.refused). reflexivity.
Defined.

(* ================================================================== *)
(** ** The topic is never written *)

(** C9.  For every view and every exchange the handler makes no
    [setTopic] call, and the topic of the view is the same when the
    handler is suspended and when it has completed. *)
Theorem submit_keeps_topic (v : View) (x : exn + Response) :
  topic_calls (submit_trace v x) = [] /\
  topic (submit_start v) = topic v /\
  topic (submit v x) = topic v.
Proof.
  destruct (JsString.blank (topic v)) eqn:B.
  - unfold submit, submit_start.
    rewrite (submit_trace_blank _ _ B), (handler_blank _ B).
    destruct v. repeat split.
  - pose proof (run_on_response x) as O.
    rewrite (submit_valid _ _ B), (submit_start_valid _ B).
    rewrite (submit_trace_valid _ _ B).
    unfold topic_calls. rewrite flat_map_app.
    fold (topic_calls (run x (on_response x))).
    rewrite (outcome_topic_calls _ _ O). repeat split.
    now destruct (outcome_exec _ _ (mkView (topic v) (VStr []) true VNull) O).
Qed.

(* ================================================================== *)
(** ** The outcomes of the exchange *)

(** C4.  For every valid submission whose exchange has a status in
    200-299 and a body that is an object with a [tweet] field [T] and no
    [error] field, the result of the view is [T] itself, whatever value
    it is, and the error is [null]. *)
Theorem tweet_is_shown (v : View) (r : Response)
    (ps : list (jsstring * value)) (T : value) :
  JsString.blank (topic v) = false ->
  ok r = true ->
  json r = inr (VObj ps) ->
  own_property (js "error") ps = None ->
  own_property (js "tweet") ps = Some T ->
  generatedTweet (submit v (inr r)) = T /\
  error (submit v (inr r)) = VNull /\
  error_panel (submit v (inr r)) = false.
Proof.
  intros B Hok J HE HT. rewrite (submit_valid _ _ B). simpl.
  rewrite Hok. simpl. rewrite J. simpl. rewrite HE. simpl. rewrite HT.
  repeat split.
Qed.

Lemma tweet_is_shown_witness :
  JsString.blank (topic Sample.typed) = false /\
  generatedTweet (submit Sample.typed (Sample.response 200 (js "tweet") Sample.solar))
    = Sample.solar.
Proof.
  split; [reflexivity|].
  apply (tweet_is_shown Sample.typed
           (mkResponse 200 (inr (VObj [(js "tweet", Sample.solar)])))
           [(js "tweet", Sample.solar)] Sample.solar); reflexivity.
Defined.

(** C5.  For every valid submission whose exchange is a rejected
    [fetch], a response with a status outside 200-299, or a response
    whose body is not JSON, the error of the view is the one fixed
    message of line 45 and the result is the empty string. *)
Theorem transport_failure_is_generic (v : View) (x : exn + Response) :
  JsString.blank (topic v) = false ->
  transport_failure x ->
  error (submit v x)
    = VStr (js "Failed to generate tweet. Is the backend server running?") /\
  generatedTweet (submit v x) = VStr [] /\
  result_panel (submit v x) = false.
Proof.
  intros B F. rewrite (submit_valid _ _ B).
  destruct F as [e|r Hok|r e Hok J]; simpl.
  - repeat split.
  - rewrite Hok. repeat split.
  - rewrite Hok. simpl. rewrite J. repeat split.
Qed.

Lemma transport_failure_is_generic_witness :
  JsString.blank (topic Sample.typed) = false /\
  transport_failure Sample.refused /\
  generatedTweet (submit Sample.typed Sample.refused) = VStr [].
Proof.
  split; [reflexivity|]. split; [constructor|].
  apply (transport_failure_is_generic Sample.typed Sample.refused);
    [reflexivity | constructor].
Defined.




(** C10, as stated, fails: the body [null] of a response of status 200
    has no tweet field and no error field, yet reading [data.error]
    throws, and the view shows the fixed message of line 45. *)
Lemma null_body_is_an_error :
  JsString.blank (topic Sample.typed) = false /\
  no_tweet_no_error VNull = true /\
  error (submit Sample.typed Sample.null_body) = VStr failure_message /\
  error_panel (submit Sample.typed Sample.null_body) = true.
Proof. repeat split. Qed.

(** C10, amended.  For every valid submission whose exchange has a
    status in 200-299 and a parsed body other than [null] with neither a
    tweet field nor a truthy error field, the handler goes through line
    42 and not through the [catch] block: the result is [undefined], the
    error stays [null], and neither panel is shown. *)
Theorem missing_tweet_is_success (v : View) (r : Response) (data : value) :
  JsString.blank (topic v) = false ->
  ok r = true ->
  json r = inr data ->
  json_value data = true ->
  data <> VNull ->
  no_tweet_no_error data = true ->
  submit_trace v (inr r) =
    [Called (setIsLoading true); Called (setError VNull);
     Called (setGeneratedTweet (VStr []));
     Fetched endpoint (request_init (topic v));
     JsonRead r; Called (setGeneratedTweet VUndefined);
     Called (setIsLoading false)] /\
  generatedTweet (submit v (inr r)) = VUndefined /\
  error (submit v (inr r)) = VNull /\
  error_panel (submit v (inr r)) = false /\
  result_panel (submit v (inr r)) = false.
Proof.
  intros B Hok J HJ HN H. unfold submit.
  rewrite (submit_trace_valid _ _ B). simpl. rewrite Hok. simpl. rewrite J.
  unfold no_tweet_no_error in H. apply andb_prop in H as [H1 H2].
  assert (G : on_data (inr data) =
              Call (setGeneratedTweet VUndefined) finally_block).
  { unfold on_data, get.
    destruct data as [| |b|n|s|l|ps]; try discriminate; try congruence;
      try reflexivity.
    simpl in H1, H2.
    destruct (own_property (js "tweet") ps); [discriminate|].
    destruct (own_property (js "error") ps) as [e|]; [|reflexivity].
    destruct (truthy e); [discriminate|reflexivity]. }
  rewrite G. destruct v. repeat split.
Qed.

Lemma missing_tweet_is_success_witness :
  JsString.blank (topic Sample.typed) = false /\
  no_tweet_no_error (VObj [(js "error", VStr [])]) = true /\
  generatedTweet (submit Sample.typed (Sample.response 200 (js "error") (VStr [])))
    = VUndefined.
Proof.
  split; [reflexivity|]. split; [reflexivity|].
  apply (missing_tweet_is_success Sample.typed
           (mkResponse 200 (inr (VObj [(js "error", VStr [])])))
           (VObj [(js "error", VStr [])]));
    try reflexivity; discriminate.
Defined.

(* ================================================================== *)
(** ** The request *)

(** C8.  For every valid submission and every exchange, the handler
    calls [fetch] once, on the endpoint, with the method POST, the one
    header [Content-Type: application/json], and as body the JSON text of
    an object with the one member [topic] whose value is the topic of the
    view: reading the body back gives that member and nothing else. *)
Theorem request_is_json_post (v : View) (x : exn + Response) :
  JsString.blank (topic v) = false ->
  exists init,
    fetches (submit_trace v x) = [(endpoint, init)] /\
    method init = js "POST" /\
    headers init = [(js "Content-Type", js "application/json")] /\
    body init = JSON.stringify [(js "topic", topic v)] /\
    JSON.read_single_member (body init) = Some (js "topic", topic v).
Proof.
  intros B. exists (request_init (topic v)).
  pose proof (run_on_response x) as O.
  rewrite (submit_trace_valid _ _ B). repeat split.
  - unfold fetches. rewrite flat_map_app.
    fold (fetches (run x (on_response x))).
    now rewrite (outcome_fetches _ _ O).
  - apply JSONFacts.read_single_member_stringify.
Qed.

Lemma request_is_json_post_witness :
  JsString.blank (topic Sample.typed) = false /\
  exists init,
    fetches (submit_trace Sample.typed Sample.refused) = [(endpoint, init)] /\
    JSON.read_single_member (body init) = Some (js "topic", js "AI").
Proof.
  split; [reflexivity|].
  destruct (request_is_json_post Sample.typed Sample.refused eq_refl)
    as (init & F & _ & _ & _ & R).
  exists init. split; assumption.
Defined.

(* ================================================================== *)
(** ** The pages that can be reached *)

Lemma singleton_split (A : Type) (before after : list A) (a b : A) :
  before ++ a :: after = [b] -> before = [] /\ after = [] /\ a = b.
Proof.
  destruct before as [|c before]; simpl; intros H.
  - inversion H. auto.
  - inversion H as [[Hc Hnil]]. destruct before; discriminate.
Qed.

Lemma shape_after_catch t e :
  page_shape (resume (mkView t (VStr []) true VNull) (catch_block e) [] []).
Proof.
  apply shape_rest. split; [reflexivity|]. right; left. split; reflexivity.
Qed.

Lemma shape_after_data t settled :
  page_shape (resume (mkView t (VStr []) true VNull) (on_data settled) [] []).
Proof.
  unfold on_data.
  destruct settled as [e|data]; [apply shape_after_catch|].
  destruct (get data (js "error")) as [e|data_error];
    [apply shape_after_catch|].
  destruct (truthy data_error); [apply shape_after_catch|].
  destruct (get data (js "tweet")) as [e|data_tweet];
    [apply shape_after_catch|].
  apply shape_rest. split; [reflexivity|]. now left.
Qed.

Lemma shape_after_response t x :
  page_shape (resume (mkView t (VStr []) true VNull) (on_response x) [] []).
Proof.
  unfold on_response.
  destruct x as [e|response]; [apply shape_after_catch|].
  destruct (ok response); simpl; [|apply shape_after_catch].
  apply shape_reading.
Qed.

Lemma shape_after_click v :
  at_rest v -> page_shape (resume v (handleGenerateTweet (topic v)) [] []).
Proof.
  intros [L R]. destruct (JsString.blank (topic v)) eqn:B.
  - rewrite (handler_blank _ B). apply shape_rest.
    split; [exact L|]. right; right. reflexivity.
  - rewrite (handler_valid _ B). apply shape_fetching.
Qed.

Lemma step_cases v ps q :
  step (mkPage v ps) q ->
  (controls_disabled v = false /\
   ((exists s, q = mkPage (apply_call (setTopic s) v) ps) \/
    q = resume v (handleGenerateTweet (topic v)) ps [])) \/
  (exists before url init k after x,
     ps = before ++ AwaitFetch url init k :: after /\
     q = resume v (k x) before after) \/
  (exists before r k after,
     ps = before ++ AwaitJson r k :: after /\
     q = resume v (k (json r)) before after).
Proof.
  intros T. inversion T; subst.
  - left. split; [assumption|]. left. eexists. reflexivity.
  - left. split; [assumption|]. now right.
  - right; left. repeat eexists.
  - right; right. repeat eexists.
Qed.

Lemma step_shape p q : page_shape p -> step p q -> page_shape q.
Proof.
  intros S T. destruct S as [v R|t|t r];
    apply step_cases in T
      as [(E & [(s & ->)| ->])
         |[(b & u & i & k & a & x & HP & ->)|(b & r' & k & a & HP & ->)]];
    try discriminate E.
  - apply shape_rest. destruct R as [L R]. split; assumption.
  - now apply shape_after_click.
  - destruct b; discriminate.
  - destruct b; discriminate.
  - symmetry in HP. apply singleton_split in HP as (-> & -> & HK).
    inversion HK; subst. apply shape_after_response.
  - symmetry in HP. apply singleton_split in HP as (_ & _ & HK). discriminate.
  - symmetry in HP. apply singleton_split in HP as (_ & _ & HK). discriminate.
  - symmetry in HP. apply singleton_split in HP as (-> & -> & HK).
    inversion HK; subst. apply shape_after_data.
Qed.

Lemma reachable_shape p : reachable p -> page_shape p.
Proof.
  induction 1 as [|p q _ IH T].
  - apply shape_rest. split; [reflexivity|now left].
  - exact (step_shape _ _ IH T).
Qed.

(** X5.  After a valid submission has completed, whatever the exchange
    was, the error panel and the result panel are not both shown. *)
Lemma panels_exclusive_after_exchange (v : View) (x : exn + Response) :
  JsString.blank (topic v) = false ->
  error_panel (submit v x) && result_panel (submit v x) = false.
Proof.
  intros B. rewrite (submit_valid _ _ B). unfold on_response.
  destruct x as [e|r]; [reflexivity|].
  destruct (ok r); [|reflexivity]. simpl. unfold on_data.
  destruct (json r) as [e|data]; [reflexivity|].
  destruct (get data (js "error")) as [e|data_error]; [reflexivity|].
  destruct (truthy data_error); [reflexivity|].
  destruct (get data (js "tweet")) as [e|data_tweet]; reflexivity.
Qed.

(** X4.  In a page that can be reached, both panels are shown only
    with the error of the validation, [Please enter a topic.]: never
    with the failure message of line 45. *)
Lemma both_panels_only_after_validation (p : Page) :
  reachable p ->
  error_panel (view p) = true -> result_panel (view p) = true ->
  error (view p) = VStr validation_message.
Proof.
  intros R. unfold error_panel, result_panel.
  destruct (reachable_shape _ R) as [v [_ [E|[[E G]|E]]]|t|t r]; simpl.
  - rewrite E. discriminate.
  - rewrite G. discriminate.
  - intros _ _. exact E.
  - discriminate.
  - discriminate.
Qed.

(* ================================================================== *)
(** ** The loading flag *)

(** C6.  For every valid submission and every way the exchange settles
    (a tweet, an error of the application, a bad status, a rejected
    [fetch] or body), the first call of the handler is
    [setIsLoading(true)], the last one is [setIsLoading(false)] and there
    is no other; the view is loading while the handler is suspended and
    is not when it has completed.  In every page that can be reached, the
    view is loading exactly when a handler is pending. *)
Theorem loading_brackets_the_exchange :
  (forall (v : View) (x : exn + Response),
     JsString.blank (topic v) = false ->
     (exists mid,
        submit_trace v x =
          Called (setIsLoading true) :: mid ++ [Called (setIsLoading false)]) /\
     loading_calls (submit_trace v x) = [true; false] /\
     isLoading (submit_start v) = true /\
     isLoading (submit v x) = false) /\
  (forall p : Page,
     reachable p ->
     isLoading (view p) = match pending p with [] => false | _ :: _ => true end).
Proof.
  split.
  - intros v x B. pose proof (run_on_response x) as O.
    rewrite (submit_valid _ _ B), (submit_start_valid _ B).
    rewrite (submit_trace_valid _ _ B). repeat split.
    + destruct (outcome_last _ _ O) as (mid & ->).
      exists ([Called (setError VNull); Called (setGeneratedTweet (VStr []));
               Fetched endpoint (request_init (topic v))] ++ mid).
      reflexivity.
    + unfold loading_calls. rewrite flat_map_app.
      fold (loading_calls (run x (on_response x))).
      now rewrite (outcome_loading_calls _ _ O).
    + now destruct (outcome_exec _ _ (mkView (topic v) (VStr []) true VNull) O).
  - intros p R. destruct (reachable_shape _ R) as [v [L _]|t|t r];
      [exact L|reflexivity|reflexivity].
Qed.

Lemma loading_brackets_the_exchange_witness :
  (JsString.blank (topic Sample.typed) = false /\
   isLoading (submit_start Sample.typed) = true /\
   isLoading (submit Sample.typed Sample.refused) = false) /\
  (reachable initial_page /\ isLoading (view initial_page) = false).
Proof.
  destruct loading_brackets_the_exchange as [V P].
  split.
  - split; [reflexivity|].
    destruct (V Sample.typed Sample.refused eq_refl) as (_ & _ & S & F).
    split; assumption.
  - split; [constructor|]. exact (P initial_page reachable_initial).
Defined.

(* ================================================================== *)
(** ** The two panels *)

(** C2.  The page [Sample.stale_tweet] can be reached (a topic is typed,
    a click, the exchange succeeds with a tweet; two spaces are typed
    over the topic, a click) and in it both the error and the result are
    truthy, so the render function shows both panels: line 16 returns
    without the [setGeneratedTweet] of the empty string that line 21 has
    on the other path. *)
Theorem both_panels_after_blank_submit :
  reachable Sample.stale_tweet /\
  error_panel (view Sample.stale_tweet) = true /\
  result_panel (view Sample.stale_tweet) = true.
Proof.
  split; [|split; reflexivity].
  pose proof reachable_initial as R0.
  pose proof (reachable_step _ _ R0
                (step_change initial_view [] (js "AI") eq_refl)) as R1.
  pose proof (reachable_step _ _ R1
                (step_click Sample.typed [] eq_refl)) as R2.
  pose proof (reachable_step _ _ R2
                (step_fetch_settled (mkView (js "AI") (VStr []) true VNull) []
                   endpoint (request_init (js "AI")) on_response []
                   (Sample.response 200 (js "tweet") Sample.solar))) as R3.
  pose proof (reachable_step _ _ R3
                (step_json_settled (mkView (js "AI") (VStr []) true VNull) []
                   (mkResponse 200 (inr (VObj [(js "tweet", Sample.solar)])))
                   on_data [])) as R4.
  pose proof (reachable_step _ _ R4
                (step_change (mkView (js "AI") Sample.solar false VNull) []
                   (js "  ") eq_refl)) as R5.
  exact (reachable_step _ _ R5
           (step_click (mkView (js "  ") Sample.solar false VNull) [] eq_refl)).
Qed.


(* ================================================================== *)
(** ** One exchange, page by page *)

Lemma step_typed_fetching : step Scenario.typed Scenario.fetching.
Proof. exact (step_click Sample.typed [] eq_refl). Qed.

Lemma step_fetching_reading : step Scenario.fetching Scenario.reading.
Proof.
  exact (step_fetch_settled Scenario.loading_view [] endpoint
           (request_init (js "AI")) on_response []
           (inr Scenario.tweet_response)).
Qed.

Lemma step_reading_shown : step Scenario.reading Scenario.shown.
Proof.
  exact (step_json_settled Scenario.loading_view []
           Scenario.tweet_response on_data []).
Qed.

Lemma reachable_typed : reachable Scenario.typed.
Proof.
  exact (reachable_step _ _ reachable_initial
           (step_change initial_view [] (js "AI") eq_refl)).
Qed.

Lemma reachable_fetching : reachable Scenario.fetching.
Proof. exact (reachable_step _ _ reachable_typed step_typed_fetching). Qed.

Lemma reachable_reading : reachable Scenario.reading.
Proof. exact (reachable_step _ _ reachable_fetching step_fetching_reading). Qed.

Lemma reachable_shown : reachable Scenario.shown.
Proof. exact (reachable_step _ _ reachable_reading step_reading_shown). Qed.

Lemma reachable_stale_tweet : reachable Sample.stale_tweet.
Proof.
  pose proof (reachable_step _ _ reachable_shown
                (step_change (mkView (js "AI") Sample.solar false VNull) []
                   (js "  ") eq_refl)) as R.
  exact (reachable_step _ _ R
           (step_click (mkView (js "  ") Sample.solar false VNull) [] eq_refl)).
Qed.

(* ================================================================== *)
(** ** What holds in every page that can be reached *)



(** X2.  In every page that can be reached, while the view is loading
    the error is [null] and the result is the empty string, so neither
    panel is on the page. *)
Theorem loading_view_is_clear (p : Page) :
  reachable p ->
  isLoading (view p) = true ->
  error (view p) = VNull /\ generatedTweet (view p) = VStr [] /\
  skipn 2 (render (view p)) = [Raw VNull; Raw (VStr [])].
Proof.
  intros R L.
  destruct (reachable_shape _ R) as [v [L' _]|t|t r]; simpl in *.
  - congruence.
  - repeat split.
  - repeat split.
Qed.

Lemma loading_view_is_clear_witness :
  reachable Scenario.reading /\
  isLoading (view Scenario.reading) = true /\
  skipn 2 (render (view Scenario.reading)) = [Raw VNull; Raw (VStr [])].
Proof.
  split; [exact reachable_reading|]. split; [reflexivity|].
  apply (loading_view_is_clear Scenario.reading reachable_reading eq_refl).
Defined.

(** X3.  In every page that can be reached, the third child of the page
    is [null] or the error panel with one of the two literals of lines
    15 and 45: no text of a response and no text of an exception gets
    into the error panel. *)
Theorem error_panel_shows_a_literal (p : Page) :
  reachable p ->
  nth_error (render (view p)) 2 = Some (Raw VNull) \/
  nth_error (render (view p)) 2
    = Some (Element (ErrorPanel (VStr (js "Please enter a topic.")))) \/
  nth_error (render (view p)) 2
    = Some (Element (ErrorPanel
         (VStr (js "Failed to generate tweet. Is the backend server running?")))).
Proof.
  intros R.
  destruct (reachable_shape _ R) as [v [_ [E|[[E _]|E]]]|t|t r];
    simpl; unfold and_then; try rewrite E; auto.
Qed.

Lemma error_panel_shows_a_literal_witness :
  reachable Sample.stale_tweet /\
  nth_error (render (view Sample.stale_tweet)) 2
    = Some (Element (ErrorPanel (VStr (js "Please enter a topic.")))).
Proof.
  split; [exact reachable_stale_tweet|].
  destruct (error_panel_shows_a_literal Sample.stale_tweet reachable_stale_tweet)
    as [H|[H|H]]; [discriminate H|exact H|discriminate H].
Defined.

(** X6.  In every page that can be reached, a pending [fetch] is the
    request for the topic that the textarea shows: it goes to the
    endpoint and its body reads back as the one member [topic] with the
    topic of the view. *)
Theorem pending_fetch_is_for_the_shown_topic (p : Page)
    (url : jsstring) (init : RequestInit) (k : exn + Response -> proc) :
  reachable p ->
  In (AwaitFetch url init k) (pending p) ->
  url = endpoint /\
  init = request_init (topic (view p)) /\
  JSON.read_single_member (body init) = Some (js "topic", topic (view p)).
Proof.
  intros R I.
  destruct (reachable_shape _ R) as [v _|t|t r]; simpl in I.
  - contradiction.
  - destruct I as [I|[]]. inversion I; subst. repeat split.
    apply JSONFacts.read_single_member_stringify.
  - destruct I as [I|[]]. discriminate.
Qed.

Lemma pending_fetch_is_for_the_shown_topic_witness :
  reachable Scenario.fetching /\
  In (AwaitFetch endpoint (request_init (js "AI")) on_response)
     (pending Scenario.fetching) /\
  JSON.read_single_member (body (request_init (js "AI")))
    = Some (js "topic", js "AI").
Proof.
  split; [exact reachable_fetching|]. split; [left; reflexivity|].
  apply (pending_fetch_is_for_the_shown_topic Scenario.fetching endpoint
           (request_init (js "AI")) on_response reachable_fetching).
  left; reflexivity.
Defined.

(** The page after each of the two [await]s of a pending handler. *)
Lemma resume_data t settled :
  exists tweet err,
    resume (mkView t (VStr []) true VNull) (on_data settled) [] []
      = mkPage (mkView t tweet false err) [].
Proof.
  unfold on_data.
  destruct settled as [e|data]; [now eexists; eexists|].
  destruct (get data (js "error")) as [e|data_error]; [now eexists; eexists|].
  destruct (truthy data_error); [now eexists; eexists|].
  destruct (get data (js "tweet")) as [e|data_tweet]; now eexists; eexists.
Qed.

Lemma resume_response t x :
  (exists tweet err,
     resume (mkView t (VStr []) true VNull) (on_response x) [] []
       = mkPage (mkView t tweet false err) []) \/
  (exists r,
     x = inr r /\ ok r = true /\
     resume (mkView t (VStr []) true VNull) (on_response x) [] []
       = mkPage (mkView t (VStr []) true VNull) [AwaitJson r on_data]).
Proof.
  unfold on_response. destruct x as [e|r]; [left; now eexists; eexists|].
  destruct (ok r) eqn:Hok; simpl.
  - right. exists r. repeat split. exact Hok.
  - left. now eexists; eexists.
Qed.

(** The steps that a page with a pending handler can take. *)
Lemma step_while_pending p q :
  page_shape p -> isLoading (view p) = true -> step p q ->
  exists t,
    topic (view p) = t /\
    ((exists tweet err, q = mkPage (mkView t tweet false err) []) \/
     (exists r k, pending p = [AwaitFetch endpoint (request_init t) k] /\
                  q = mkPage (mkView t (VStr []) true VNull)
                             [AwaitJson r on_data])).
Proof.
  intros S L T. destruct S as [v [L' _]|t|t r]; simpl in L; [congruence| |];
    exists t; (split; [reflexivity|]);
    apply step_cases in T
      as [(E & _)
         |[(b & u & i & k & a & x & HP & ->)|(b & r' & k & a & HP & ->)]];
    try discriminate E; symmetry in HP;
    apply singleton_split in HP as (-> & -> & HK);
    try discriminate HK; inversion HK; subst.
  - destruct (resume_response t x) as [(tw & er & ->)|(r & _ & _ & ->)].
    + left. now exists tw, er.
    + right. exists r, on_response. split; reflexivity.
  - destruct (resume_data t (json r)) as (tw & er & ->).
    left. now exists tw, er.
Qed.

(** X7.  In every page that can be reached, while a handler is pending
    no step changes the topic: the textarea is disabled, and the
    handler does not write it when it resumes. *)
Theorem topic_is_frozen_while_pending (p q : Page) :
  reachable p ->
  isLoading (view p) = true ->
  step p q ->
  topic (view q) = topic (view p).
Proof.
  intros R L T.
  destruct (step_while_pending p q (reachable_shape _ R) L T)
    as (t & Ht & [(tw & er & ->)|(r & k & _ & ->)]); simpl; congruence.
Qed.

Lemma topic_is_frozen_while_pending_witness :
  reachable Scenario.reading /\
  step Scenario.reading Scenario.shown /\
  topic (view Scenario.shown) = topic (view Scenario.reading).
Proof.
  split; [exact reachable_reading|].
  split; [exact step_reading_shown|].
  exact (topic_is_frozen_while_pending Scenario.reading Scenario.shown
           reachable_reading eq_refl step_reading_shown).
Defined.

(** X8.  An exchange takes at most two steps: in a page that can be
    reached, if the view is loading before and after one step, then
    after the next step nothing is pending, the view is not loading and
    the controls are enabled again. *)
Theorem exchange_settles_in_two_steps (p q q' : Page) :
  reachable p ->
  isLoading (view p) = true ->
  step p q ->
  isLoading (view q) = true ->
  step q q' ->
  pending q' = [] /\ isLoading (view q') = false /\
  controls_disabled (view q') = false.
Proof.
  intros R L T L' T'.
  pose proof (reachable_step _ _ R T) as R'.
  destruct (step_while_pending q q' (reachable_shape _ R') L' T')
    as (t & _ & [(tw & er & ->)|(r & k & HP & _)]).
  - repeat split.
  - destruct (step_while_pending p q (reachable_shape _ R) L T)
      as (t0 & _ & [(tw & er & ->)|(r0 & k0 & _ & ->)]).
    + discriminate L'.
    + discriminate HP.
Qed.

Lemma exchange_settles_in_two_steps_witness :
  reachable Scenario.fetching /\
  step Scenario.fetching Scenario.reading /\
  step Scenario.reading Scenario.shown /\
  pending Scenario.shown = [] /\ isLoading (view Scenario.shown) = false /\
  controls_disabled (view Scenario.shown) = false.
Proof.
  split; [exact reachable_fetching|].
  split; [exact step_fetching_reading|].
  split; [exact step_reading_shown|].
  exact (exchange_settles_in_two_steps Scenario.fetching Scenario.reading
           Scenario.shown reachable_fetching eq_refl step_fetching_reading
           eq_refl step_reading_shown).
Defined.

(* ================================================================== *)
(** ** More on the outcomes of a submission *)

Lemma submit_topic v x : topic (submit v x) = topic v.
Proof.
  destruct (JsString.blank (topic v)) eqn:B.
  - unfold submit. rewrite (submit_trace_blank _ _ B). now destruct v.
  - rewrite (submit_valid _ _ B).
    now destruct (outcome_exec _ _ (mkView (topic v) (VStr []) true VNull)
                    (run_on_response x)).
Qed.

(** X9.  The body of a response is read exactly when the submission is
    valid, the [fetch] resolves and the status is in 200-299: for any
    other status [response.json()] is never called. *)
Theorem body_is_read_only_when_ok (v : View) (x : exn + Response) :
  json_reads (submit_trace v x) =
    if JsString.blank (topic v) then []
    else match x with
         | inl _ => []
         | inr r => if ((200 <=? status r) && (status r <=? 299))%Z then [r]
                    else []
         end.
Proof.
  destruct (JsString.blank (topic v)) eqn:B.
  - now rewrite (submit_trace_blank _ _ B).
  - rewrite (submit_trace_valid _ _ B). simpl. unfold on_response.
    destruct x as [e|r]; [reflexivity|]. fold (ok r).
    destruct (ok r); simpl; [|reflexivity]. unfold on_data.
    destruct (json r) as [e|data]; [reflexivity|].
    destruct (get data (js "error")) as [e|data_error]; [reflexivity|].
    destruct (truthy data_error); [reflexivity|].
    destruct (get data (js "tweet")) as [e|data_tweet]; reflexivity.
Qed.

(** X10.  [console.error] is called once when the submission ends with
    the failure message of line 45 and is not called otherwise: neither
    a tweet nor the validation error is logged. *)
Theorem console_error_iff_failure (v : View) (x : exn + Response) :
  (error (submit v x) = VStr failure_message ->
   exists e, console_calls (submit_trace v x) = [e]) /\
  (error (submit v x) <> VStr failure_message ->
   console_calls (submit_trace v x) = []).
Proof.
  destruct (JsString.blank (topic v)) eqn:B.
  - unfold submit. rewrite (submit_trace_blank _ _ B). split.
    + destruct v. simpl. intros H. exfalso. revert H. vm_compute. discriminate.
    + reflexivity.
  - rewrite (submit_valid _ _ B), (submit_trace_valid _ _ B).
    assert (C : forall pre e,
              console_calls pre = [] ->
              (exists e', console_calls
                 ([Called (setIsLoading true); Called (setError VNull);
                   Called (setGeneratedTweet (VStr []));
                   Fetched endpoint (request_init (topic v))]
                  ++ pre ++ run x (catch_block e)) = [e'])).
    { intros pre e Hpre. exists e. unfold console_calls in *.
      simpl. now rewrite flat_map_app, Hpre. }
    unfold on_response.
    destruct x as [e|r]; [split; [intros _; exact (C [] e eq_refl)|now intros []]|].
    destruct (ok r); simpl;
      [|split; [intros _; exact (C [] _ eq_refl)|now intros []]].
    unfold on_data.
    destruct (json r) as [e|data];
      [split; [intros _; exact (C [JsonRead r] e eq_refl)|now intros []]|].
    destruct (get data (js "error")) as [e|data_error];
      [split; [intros _; exact (C [JsonRead r] e eq_refl)|now intros []]|].
    destruct (truthy data_error);
      [split; [intros _; exact (C [JsonRead r] _ eq_refl)|now intros []]|].
    destruct (get data (js "tweet")) as [e|data_tweet];
      [split; [intros _; exact (C [JsonRead r] e eq_refl)|now intros []]|].
    split; [discriminate|reflexivity].
Qed.

Lemma console_error_iff_failure_witness :
  error (submit Sample.typed Sample.refused) = VStr failure_message /\
  exists e, console_calls (submit_trace Sample.typed Sample.refused) = [e].
Proof.
  split; [reflexivity|].
  exact (proj1 (console_error_iff_failure Sample.typed Sample.refused) eq_refl).
Defined.

(** X11.  A valid submission ends without an error exactly when the
    [fetch] resolves with a status in 200-299, the body parses to a
    value other than [null] and its [error] field is not truthy; the
    result then is the [tweet] field of the body. *)
Theorem success_iff (v : View) (x : exn + Response) :
  JsString.blank (topic v) = false ->
  error (submit v x) = VNull <->
  exists r data e t,
    x = inr r /\ ok r = true /\ json r = inr data /\
    get data (js "error") = inr e /\ truthy e = false /\
    get data (js "tweet") = inr t /\ generatedTweet (submit v x) = t.
Proof.
  intros B. rewrite (submit_valid _ _ B). split.
  - unfold on_response. destruct x as [e|r]; [discriminate|].
    destruct (ok r) eqn:Hok; simpl; [|discriminate].
    unfold on_data.
    destruct (json r) as [e|data] eqn:J; [discriminate|].
    destruct (get data (js "error")) as [e|data_error] eqn:GE; [discriminate|].
    destruct (truthy data_error) eqn:TE; [discriminate|].
    destruct (get data (js "tweet")) as [e|data_tweet] eqn:GT; [discriminate|].
    intros _. exists r, data, data_error, data_tweet. repeat split; auto.
  - intros (r & data & e & t & -> & Hok & J & GE & TE & GT & _).
    simpl. rewrite Hok. simpl. rewrite J. simpl. rewrite GE, TE, GT.
    reflexivity.
Qed.

Lemma success_iff_witness :
  JsString.blank (topic Sample.typed) = false /\
  exists r data e t,
    Sample.response 200 (js "tweet") Sample.solar = inr r /\ ok r = true /\
    json r = inr data /\ get data (js "error") = inr e /\ truthy e = false /\
    get data (js "tweet") = inr t /\
    generatedTweet (submit Sample.typed (Sample.response 200 (js "tweet") Sample.solar)) = t.
Proof.
  split; [reflexivity|].
  exact (proj1 (success_iff Sample.typed
                  (Sample.response 200 (js "tweet") Sample.solar) eq_refl)
               eq_refl).
Defined.

(** X12.  For a response whose body has no error field and a tweet
    that is truthy and not an object (a string that is not empty, a
    number other than zero, [true]), the bounds of the status are 200
    and 299: the result panel is shown, with that tweet, exactly for a
    status from 200 to 299, and the error panel exactly for a status
    below 200 or above 299. *)
Theorem status_bounds (v : View) (r : Response)
    (ps : list (jsstring * value)) (T : value) :
  JsString.blank (topic v) = false ->
  json r = inr (VObj ps) ->
  own_property (js "error") ps = None ->
  own_property (js "tweet") ps = Some T ->
  truthy T = true ->
  primitive T = true ->
  (nth_error (render (submit v (inr r))) 3 = Some (Element (ResultPanel T))
   <-> (200 <= status r <= 299)%Z) /\
  (result_panel (submit v (inr r)) = true <-> (200 <= status r <= 299)%Z) /\
  (error_panel (submit v (inr r)) = true <->
   (status r < 200 \/ 299 < status r)%Z).
Proof.
  intros B J HE HT TT _. rewrite (submit_valid _ _ B).
  unfold error_panel, result_panel. simpl.
  destruct (ok r) eqn:Hok; unfold ok in Hok; simpl.
  - rewrite J. simpl. rewrite HE. simpl. rewrite HT. simpl.
    unfold and_then. simpl. rewrite TT.
    repeat split; intros; try reflexivity; try discriminate; lia.
  - unfold and_then. simpl.
    repeat split; intros; try reflexivity; try discriminate; lia.
Qed.

Lemma status_bounds_witness :
  JsString.blank (topic Sample.typed) = false /\
  truthy Sample.solar = true /\
  primitive Sample.solar = true /\
  (nth_error
     (render (submit Sample.typed (Sample.response 299 (js "tweet") Sample.solar))) 3
     = Some (Element (ResultPanel Sample.solar)) <-> (200 <= 299 <= 299)%Z).
Proof.
  split; [reflexivity|]. split; [reflexivity|]. split; [reflexivity|].
  exact (proj1 (status_bounds Sample.typed
                  (mkResponse 299 (inr (VObj [(js "tweet", Sample.solar)])))
                  [(js "tweet", Sample.solar)] Sample.solar
                  eq_refl eq_refl eq_refl eq_refl eq_refl eq_refl)).
Defined.

(** X13.  A valid submission does not depend on what was submitted
    before: submitting again, after any outcome of the first exchange,
    gives the view that the second exchange alone gives. *)
Theorem resubmit_replaces (v : View) (x1 x2 : exn + Response) :
  JsString.blank (topic v) = false ->
  submit (submit v x1) x2 = submit v x2.
Proof.
  intros B.
  assert (B' : JsString.blank (topic (submit v x1)) = false)
    by now rewrite submit_topic.
  rewrite (submit_valid _ x2 B'), (submit_valid _ x2 B), submit_topic.
  reflexivity.
Qed.

Lemma resubmit_replaces_witness :
  JsString.blank (topic Sample.typed) = false /\
  submit (submit Sample.typed Sample.refused)
         (Sample.response 200 (js "tweet") Sample.solar)
    = submit Sample.typed (Sample.response 200 (js "tweet") Sample.solar).
Proof.
  split; [reflexivity|].
  exact (resubmit_replaces Sample.typed Sample.refused
           (Sample.response 200 (js "tweet") Sample.solar) eq_refl).
Defined.

(** X14.  When the exchange succeeds with a tweet that is not truthy
    (an empty string, zero, [false], [null], or no tweet at all), the
    page shows neither panel: the two conditional children are [null]
    and the tweet itself. *)
Theorem falsy_tweet_shows_nothing (v : View) (r : Response)
    (data e t : value) :
  JsString.blank (topic v) = false ->
  ok r = true ->
  json r = inr data ->
  get data (js "error") = inr e ->
  truthy e = false ->
  get data (js "tweet") = inr t ->
  truthy t = false ->
  skipn 2 (render (submit v (inr r))) = [Raw VNull; Raw t] /\
  error_panel (submit v (inr r)) = false /\
  result_panel (submit v (inr r)) = false.
Proof.
  intros B Hok J GE TE GT TT. rewrite (submit_valid _ _ B). simpl.
  rewrite Hok. simpl. rewrite J. simpl. rewrite GE, TE, GT.
  unfold error_panel, result_panel. simpl. unfold and_then. simpl.
  rewrite TT. repeat split.
Qed.

Lemma falsy_tweet_shows_nothing_witness :
  JsString.blank (topic Sample.typed) = false /\
  truthy (VStr []) = false /\
  skipn 2 (render (submit Sample.typed (Sample.response 200 (js "tweet") (VStr []))))
    = [Raw VNull; Raw (VStr [])].
Proof.
  split; [reflexivity|]. split; [reflexivity|].
  apply (falsy_tweet_shows_nothing Sample.typed
           (mkResponse 200 (inr (VObj [(js "tweet", VStr [])])))
           (VObj [(js "tweet", VStr [])]) VUndefined (VStr []));
    reflexivity.
Defined.

(** X15.  The handler calls [fetch] exactly when the topic has a code
    unit that is not white space. *)
Theorem fetch_iff_not_white_space (v : View) (x : exn + Response) :
  fetches (submit_trace v x) <> [] <->
  exists c, In c (topic v) /\ JsString.is_white_space c = false.
Proof.
  rewrite <- JsStringFacts.not_blank.
  destruct (JsString.blank (topic v)) eqn:B.
  - rewrite (submit_trace_blank _ _ B). simpl. split; [tauto|discriminate].
  - rewrite (submit_trace_valid _ _ B). simpl. split; [reflexivity|discriminate].
Qed.

Lemma fetch_iff_not_white_space_witness :
  (exists c, In c (topic Sample.typed) /\ JsString.is_white_space c = false) /\
  fetches (submit_trace Sample.typed Sample.refused) <> [].
Proof.
  assert (H : exists c, In c (topic Sample.typed) /\
                        JsString.is_white_space c = false).
  { exists 65. split; [left; reflexivity|reflexivity]. }
  split; [exact H|].
  exact (proj2 (fetch_iff_not_white_space Sample.typed Sample.refused) H).
Defined.

(* ================================================================== *)
(** ** More on the request body *)

Lemma hex_digit_plain d : d < 16 -> plain (JSON.hex_digit d) = true.
Proof.
  intros H.
  unfold plain, JSON.hex_digit, JSON.is_leading_surrogate,
    JSON.is_trailing_surrogate.
  destruct (d <? 10) eqn:E; lia.
Qed.

Lemma UnicodeEscape_plain c : forallb plain (JSON.UnicodeEscape c) = true.
Proof.
  unfold JSON.UnicodeEscape. cbn [forallb].
  rewrite !hex_digit_plain by (apply N.mod_lt; discriminate).
  reflexivity.
Qed.

Lemma quote_unit_plain c :
  JSON.is_leading_surrogate c = false ->
  JSON.is_trailing_surrogate c = false ->
  forallb plain (JSON.quote_unit c) = true.
Proof.
  intros Hl Ht. unfold JSON.quote_unit.
  repeat match goal with
         | |- context [if ?c =? ?k then _ else _] =>
             destruct (N.eqb_spec c k) as [->|?]; [reflexivity|]
         end.
  destruct (N.ltb_spec c 32); [apply UnicodeEscape_plain|].
  cbn [forallb]. unfold plain. rewrite Hl, Ht.
  replace (32 <=? c) with true by lia. reflexivity.
Qed.

Lemma plain_no_control a : forallb plain a = true -> no_control a = true.
Proof.
  unfold no_control. rewrite !forallb_forall. intros H c Hc.
  specialize (H c Hc). unfold plain in H. lia.
Qed.

Lemma well_formed_plain_app a b :
  forallb plain a = true -> well_formed (a ++ b) = well_formed b.
Proof.
  induction a as [|c a IH]; [reflexivity|].
  cbn [forallb app well_formed]. intros H.
  apply andb_prop in H as [Hc Ha]. unfold plain in Hc.
  destruct (JSON.is_leading_surrogate c); [lia|].
  destruct (JSON.is_trailing_surrogate c); [lia|].
  simpl. exact (IH Ha).
Qed.

Lemma no_control_app a b : no_control (a ++ b) = no_control a && no_control b.
Proof. apply forallb_app. Qed.

(** What [QuoteJSONString] writes between the quotes is well formed and
    has no control character, whatever the string. *)
Lemma quote_units_clean n : forall s rest,
  (List.length s <= n)%nat ->
  well_formed (JSON.quote_units s ++ rest) = well_formed rest /\
  no_control (JSON.quote_units s) = true.
Proof.
  induction n as [|n IH]; intros s rest L.
  - destruct s; [split; reflexivity|simpl in L; lia].
  - destruct s as [|c s]; [split; reflexivity|].
    simpl in L. cbn [JSON.quote_units].
    destruct (JSON.is_leading_surrogate c) eqn:Hl.
    + destruct s as [|d s].
      * split; [apply well_formed_plain_app|apply plain_no_control];
          apply UnicodeEscape_plain.
      * destruct (JSON.is_trailing_surrogate d) eqn:Ht.
        -- simpl in L. destruct (IH s rest ltac:(lia)) as [W C].
           split.
           ++ cbn [app well_formed]. rewrite Hl, Ht. simpl. exact W.
           ++ unfold no_control in *. cbn [forallb]. rewrite C.
              unfold JSON.is_leading_surrogate in Hl.
              unfold JSON.is_trailing_surrogate in Ht. lia.
        -- destruct (IH (d :: s) rest ltac:(simpl in *; lia)) as [W C].
           split.
           ++ rewrite <- app_assoc.
              rewrite (well_formed_plain_app _ _ (UnicodeEscape_plain c)).
              exact W.
           ++ rewrite no_control_app, C.
              now rewrite (plain_no_control _ (UnicodeEscape_plain c)).
    + destruct (IH s rest ltac:(lia)) as [W C].
      destruct (JSON.is_trailing_surrogate c) eqn:Ht.
      * split.
        -- rewrite <- app_assoc.
           rewrite (well_formed_plain_app _ _ (UnicodeEscape_plain c)).
           exact W.
        -- rewrite no_control_app, C.
           now rewrite (plain_no_control _ (UnicodeEscape_plain c)).
      * split.
        -- rewrite <- app_assoc.
           rewrite (well_formed_plain_app _ _ (quote_unit_plain c Hl Ht)).
           exact W.
        -- rewrite no_control_app, C.
           now rewrite (plain_no_control _ (quote_unit_plain c Hl Ht)).
Qed.

(** The body of the request around the topic. *)
Lemma request_body_shape (t : jsstring) :
  body (request_init t) =
    [123; 34; 116; 111; 112; 105; 99; 34; 58; 34]
    ++ JSON.quote_units t ++ [34; 125].
Proof.
  unfold request_init, body, JSON.stringify, JSON.members, JSON.QuoteJSONString.
  change (JSON.quote_units (js "topic")) with [116; 111; 112; 105; 99].
  cbn [app]. rewrite <- app_assoc. reflexivity.
Qed.

(** X16.  Whatever the topic (quotes, backslashes, line breaks, lone
    surrogates), the body of the request has no control character and is
    well-formed UTF-16. *)
Theorem request_body_is_clean (t : jsstring) :
  no_control (body (request_init t)) = true /\
  well_formed (body (request_init t)) = true.
Proof.
  destruct (quote_units_clean (List.length t) t [34; 125] (le_n _)) as [W C].
  rewrite request_body_shape. split.
  - rewrite !no_control_app, C. reflexivity.
  - rewrite well_formed_plain_app by reflexivity.
    rewrite W. reflexivity.
Qed.

(** X17.  Two topics with the same request body are the same topic. *)
Theorem request_body_injective (t1 t2 : jsstring) :
  body (request_init t1) = body (request_init t2) -> t1 = t2.
Proof.
  intros H.
  pose proof (JSONFacts.read_single_member_stringify (js "topic") t1) as R1.
  pose proof (JSONFacts.read_single_member_stringify (js "topic") t2) as R2.
  unfold request_init, body in H. rewrite H in R1. congruence.
Qed.

Lemma request_body_injective_witness :
  body (request_init (js "AI")) = body (request_init (js "AI")) /\
  js "AI" = js "AI".
Proof.
  split; [reflexivity|].
  exact (request_body_injective (js "AI") (js "AI") eq_refl).
Defined.

(* ================================================================== *)
(** ** The two panels, on the sample pages *)

Lemma both_panels_only_after_validation_witness :
  reachable Sample.stale_tweet /\
  error_panel (view Sample.stale_tweet) = true /\
  result_panel (view Sample.stale_tweet) = true /\
  error (view Sample.stale_tweet) = VStr validation_message.
Proof.
  split; [exact reachable_stale_tweet|]. split; [reflexivity|].
  split; [reflexivity|].
  exact (both_panels_only_after_validation Sample.stale_tweet
           reachable_stale_tweet eq_refl eq_refl).
Defined.

Lemma panels_exclusive_after_exchange_witness :
  JsString.blank (topic Sample.typed) = false /\
  error_panel (submit Sample.typed (Sample.response 200 (js "tweet") Sample.solar))
  && result_panel (submit Sample.typed (Sample.response 200 (js "tweet") Sample.solar))
  = false.
Proof.
  split; [reflexivity|].
  exact (panels_exclusive_after_exchange Sample.typed
           (Sample.response 200 (js "tweet") Sample.solar) eq_refl).
Defined.
